(** * Nutrition planner: calorie targets and meal catalog

    A shallow embedding of [nutrition_planner.py] and the properties its
    specification states about it.

    Numbers.  Every finite Python [int] or [float] is a rational number, and
    the specification speaks of real inputs and exact formulas, so weights,
    timelines and calories per day are rationals [Q] with exact arithmetic;
    numeric equality is [==] ([Qeq]), as Python's [==] on numbers compares
    values and not representations.  IEEE rounding is not modelled.  Calorie
    counts of the food tables are Python [int]s, here [Z].

    Strings are [string]s of 8-bit characters; [str.lower] maps the letters
    [A]..[Z] to [a]..[z] and leaves every other character alone.

    Errors.  Operations that can raise in Python ([/] on a zero divisor,
    [random.choice] on an empty sequence, [sort_values] on a missing column)
    return a [PyResult].

    Randomness.  [random_meal] runs in a state monad over the generator, whose
    draws are arbitrary.

    pandas.  A frame is the list of its rows with their index labels;
    [sort_values] is given by its contract, a relation between a frame and
    the results the call may produce. *)

From Stdlib Require Import QArith Qabs Qminmax Lqa Lia ZArith.
From Stdlib Require Import Ascii String List Permutation Sorted.
From stdpp Require Import gmap strings list fin_maps sorting.

Local Open Scope string_scope.
Local Open Scope Q_scope.

(** ** Python results *)

Inductive PyExc : Type :=
  | ZeroDivisionError
  | IndexError
  | KeyError.

Inductive PyResult (A : Type) : Type :=
  | Ok (a : A)
  | Raise (e : PyExc).

Arguments Ok {A} a.
Arguments Raise {A} e.

Definition py_bind {A B : Type} (r : PyResult A) (k : A -> PyResult B)
  : PyResult B :=
  match r with
  | Ok a => k a
  | Raise e => Raise e
  end.

Notation "'let?' x ':=' r 'in' k" := (py_bind r (fun x => k))
  (at level 10, x pattern, r at level 100, k at level 200, only parsing).

(** ** Numeric primitives *)

(** [a > b] on numbers. *)
Definition py_gt (a b : Q) : bool := negb (Qle_bool a b).

(** [a < b] on numbers. *)
Definition py_lt (a b : Q) : bool := py_gt b a.

(** The builtin [max(a, b)]: keeps the first argument unless the second is
    strictly greater. *)
Definition py_max (a b : Q) : Q := if py_gt b a then b else a.

(** True division [a / b]; a zero divisor raises. *)
Definition py_truediv (a b : Q) : PyResult Q :=
  if Qeq_bool b 0 then Raise ZeroDivisionError else Ok (a / b).

(** The builtin [abs]. *)
Definition py_abs (a : Q) : Q := if py_lt a 0 then - a else a.

(** ** Strings *)

Definition lower_ascii (c : ascii) : ascii :=
  let n := nat_of_ascii c in
  if (65 <=? n)%nat && (n <=? 90)%nat then ascii_of_nat (n + 32) else c.

(** [str.lower]. *)
Fixpoint lower (s : string) : string :=
  match s with
  | EmptyString => EmptyString
  | String c s' => String (lower_ascii c) (lower s')
  end.

(** ** Activity factors *)

(** The module-level dict [factors]. *)
Definition factors : gmap string Q :=
  <["high" := 16.0]> (<["medium" := 14.0]> (<["low" := 12.0]> ∅)).

(** [dict.get(key, dflt)]. *)
Definition dict_get (d : gmap string Q) (key : string) (dflt : Q) : Q :=
  default dflt (d !! key).

Definition maintain_cals (weight_lb : Q) (activity_level : string) : Q :=
  let factor := dict_get factors (lower activity_level) 14.0 in
  let maintain := weight_lb * factor in
  maintain.

(** ** Person *)

Record Person : Type := mkPerson {
  current_w : Q;
  goal_w : Q;
  timeline : Q;
  activity : string;
  health_concern : bool;
  calorie_target : Q;
  fiber_grams : Q;
  sat_fat : Q
}.

(** [Person.__init__]; [health_concern], [calorie_target] and [sat_fat] are
    the keyword parameters with defaults [False], [2000] and [1]. *)
Definition Person_init (current_w goal_w timeline : Q) (activity : string)
    (health_concern : bool) (calorie_target : Q) (sat_fat : Q)
  : PyResult Person :=
  let? q := py_truediv calorie_target 1000 in
  let fiber_grams := q * 14 in
  let? sat_fat' := py_truediv (calorie_target * 0.07) 9 in
  Ok (mkPerson current_w goal_w timeline activity health_concern
        calorie_target fiber_grams sat_fat').

(** The call [Person(current_w, goal_w, timeline, activity)] with the
    defaults. *)
Definition Person_new (current_w goal_w timeline : Q) (activity : string)
  : PyResult Person :=
  Person_init current_w goal_w timeline activity false 2000 1.


Definition goal_type (self : Person) : string :=
  if py_lt (goal_w self) (current_w self) then "lose"
  else if py_gt (goal_w self) (current_w self) then "gain"
  else "maintain".

Definition daily_calorie_target (self : Person) : PyResult (Q * bool) :=
  let maintenance := maintain_cals (current_w self) (activity self) in
  let pounds_change := goal_w self - current_w self in
  let total_calorie_shift := pounds_change * 3500 in
  let days := py_max (timeline self * 7) 1 in
  let? daily_adjustment := py_truediv total_calorie_shift days in
  let unhealthy := py_gt (py_abs daily_adjustment) 1000 in
  let calorie_target := maintenance + daily_adjustment in
  Ok (calorie_target, unhealthy).

Definition protein_grams (self : Person) : Q :=
  let goal := goal_type self in
  let multiplier := if String.eqb goal "lose" then 1.0 else 0.8 in
  current_w self * multiplier.


(** ** The random source *)

(** The generator behind [random]: an unbounded sequence of raw draws and a
    cursor into it.  Nothing is assumed about the draws. *)
Record Rng : Type := mkRng {
  draws : nat -> nat;
  cursor : nat
}.

(** Computations that draw random numbers and may raise. *)
Definition Rand (A : Type) : Type := Rng -> PyResult (A * Rng).

Definition rand_ret {A : Type} (a : A) : Rand A := fun g => Ok (a, g).

Definition rand_bind {A B : Type} (m : Rand A) (k : A -> Rand B) : Rand B :=
  fun g =>
    match m g with
    | Ok (a, g') => k a g'
    | Raise e => Raise e
    end.

Notation "'do' x '<-' m ';' k" := (rand_bind m (fun x => k))
  (at level 10, x pattern, m at level 100, k at level 200, only parsing).

(** [random.choice(seq)]: [seq[randbelow(len(seq))]], [IndexError] on an
    empty sequence. *)
Definition random_choice {A : Type} (seq : list A) : Rand A :=
  fun g =>
    match seq with
    | [] => Raise IndexError
    | x :: _ =>
        let i := (draws g (cursor g) mod length seq)%nat in
        Ok (nth i seq x, mkRng (draws g) (S (cursor g)))
    end.

(** ** FoodDatabase *)

(** A food: display name and calories. *)
Definition FoodItem : Type := string * Z.

(** A [dict] from category to its foods, in insertion order (the order
    [dict.items()] iterates in). *)
Definition Table : Type := list (string * list FoodItem).

Record FoodDatabase : Type := mkFoodDatabase {
  low_cal : Table;
  high_cal : Table
}.

Local Open Scope Z_scope.

(** [FoodDatabase.__init__]. *)
Definition FoodDatabase_init : FoodDatabase :=
  {| low_cal :=
       [ ("protein",
           [ ("chicken breast, 100g", 165);
             ("tofu, 100g", 80);
             ("egg whites, 3 large", 50) ]);
         ("dairy",
           [ ("nonfat Greek yogurt, 150g", 90);
             ("skim milk, 1 cup", 80) ]);
         ("veggies",
           [ ("spinach, 2 cups", 20);
             ("broccoli, 1 cup", 55) ]);
         ("grain",
           [ ("brown rice, 1/2 cup cooked", 110);
             ("quinoa, 185g", 222) ]) ];
     high_cal :=
       [ ("protein",
           [ ("peanut butter, 32g", 188);
             ("ground beef, 100g", 250) ]);
         ("dairy",
           [ ("cheddar cheese, 1 oz", 115);
             ("whole milk, 1 cup", 150) ]);
         ("veggies",
           [ ("sweet potato, 1 medium", 110);
             ("avocado, 1/2", 120) ]);
         ("grain",
           [ ("white rice, 1 cup cooked", 200);
             ("pasta, 1 cup cooked", 220) ]) ] |}.

(** *** [random_meal] *)

(** The f-string [f"{category}: {name}"]. *)
Definition format_item (category name : string) : string :=
  category ++ ": " ++ name.

(** The loop [for category, foods in source.items()] with its two
    accumulators. *)
Fixpoint meal_loop (items : Table) (meal_items : list string) (total_cals : Z)
  : Rand (list string * Z) :=
  match items with
  | [] => rand_ret (meal_items, total_cals)
  | (category, foods) :: rest =>
      do (name, cals) <- random_choice foods;
      meal_loop rest (meal_items ++ [format_item category name])%list
        (total_cals + cals)
  end.

Definition random_meal (self : FoodDatabase) (person : Person)
  : Rand (list string * Z * string) :=
  do (source, group) <-
    (if String.eqb (goal_type person) "lose" then
       rand_ret (low_cal self, "low")
     else if String.eqb (goal_type person) "gain" then
       rand_ret (high_cal self, "high")
     else
       do source <- random_choice [low_cal self; high_cal self];
       rand_ret (source, "balanced"));
  do (meal_items, total_cals) <- meal_loop source [] 0;
  rand_ret (meal_items, total_cals, group).

(** *** [store_food_df] *)

(** One row dict of the frame. *)
Record Row : Type := mkRow {
  group : string;
  category : string;
  food : string;
  calories : Z
}.

(** A [pandas.DataFrame] of such rows: each row with its index label. *)
Definition DataFrame : Type := list (nat * Row).

(** [pd.DataFrame(rows)]: the rows under a fresh [RangeIndex]. *)
Definition DataFrame_of_rows (rows : list Row) : DataFrame :=
  zip (seq 0 (length rows)) rows.

(** The two nested loops that fill [rows]. *)
Definition food_rows (source : Table) (label : string) : list Row :=
  fold_left
    (fun (rows : list Row) '(category, foods) =>
       fold_left
         (fun (rows : list Row) '(name, cals) =>
            (rows ++ [mkRow label category name cals])%list)
         foods rows)
    source [].

(** Order of two rows of a frame by their ["calories"]. *)
Definition calories_le (a b : nat * Row) : Prop :=
  calories (snd a) <= calories (snd b).

(** [df.sort_values("calories")].  The call leaves [kind] at its default,
    ["quicksort"], which pandas documents as not stable: the result holds the
    rows of [df], index labels kept, in some order of non-decreasing
    calories.  A frame without a ["calories"] column (no rows) raises
    [KeyError]. *)
Inductive sort_values_calories : DataFrame -> PyResult DataFrame -> Prop :=
  | sort_values_no_column :
      sort_values_calories [] (Raise KeyError)
  | sort_values_sorted (df out : DataFrame) :
      df <> [] ->
      Permutation df out ->
      Sorted calories_le out ->
      sort_values_calories df (Ok out).

Definition store_food_df (self : FoodDatabase) (group : string)
  : PyResult DataFrame -> Prop :=
  let '(source, label) :=
    if String.eqb group "low" then (low_cal self, "low_cal")
    else (high_cal self, "high_cal") in
  let rows := food_rows source label in
  let df := DataFrame_of_rows rows in
  sort_values_calories df.



Fixpoint insert_before (x : nat * Row) (l : DataFrame) : DataFrame :=
  match l with
  | [] => [x]
  | y :: l' =>
      if calories (snd x) <=? calories (snd y) then x :: y :: l'
      else y :: insert_before x l'
  end.

Definition sort_stable (df : DataFrame) : DataFrame :=
  fold_right insert_before [] df.


(** Rows of equal calories stand in the order of their index labels, that is
    in the order the catalog declares them. *)
Definition index_order_on_ties (a b : nat * Row) : Prop :=
  calories (snd a) = calories (snd b) -> (fst a < fst b)%nat.

Definition ties_keep_order (out : DataFrame) : Prop :=
  StronglySorted index_order_on_ties out.

(** Number of foods of a table, over all categories. *)
Definition table_size (t : Table) : nat :=
  list_sum (map (fun '(_, foods) => length foods) t).

(** The meal strings of a selection [picks] of one food per category of
    [source]: ["{category}: {food_name}"] for each. *)
Definition meal_of (source : Table) (picks : list FoodItem) : list string :=
  zip_with (fun cf pick => format_item (fst cf) (fst pick)) source picks.

(** The calories of a selection, summed. *)
Definition total_of (picks : list FoodItem) : Z :=
  fold_right Z.add 0%Z (map snd picks).

(** [picks] holds, category by category of [source], one of its foods. *)
Definition one_per_category (source : Table) (picks : list FoodItem) : Prop :=
  Forall2 (fun cf pick => In pick (snd cf)) source picks.

(** Every category of a table offers a food, and every food has positive
    calories. *)
Definition table_ok (t : Table) : Prop :=
  Forall (fun cf => snd cf <> [] /\ Forall (fun f => (0 < snd f)%Z) (snd cf)) t.

(** The rows of a table as the specification words them: every food of every
    category, in declaration order. *)
Definition catalog_rows (source : Table) (label : string) : list Row :=
  flat_map
    (fun cf => map (fun f => mkRow label (fst cf) (fst f) (snd f)) (snd cf))
    source.

(** The frame of the high-calorie tier of the catalog, sorted. *)
Definition high_cal_frame : DataFrame :=
  sort_stable
    (DataFrame_of_rows (food_rows (high_cal FoodDatabase_init) "high_cal")).

(** The activity factor as the specification words it: the factor of the
    lowercased level, 14.0 for any other key. *)
Definition activity_factor_spec (key : string) : Q :=
  if String.eqb key "low" then 12.0%Q
  else if String.eqb key "medium" then 14.0%Q
  else if String.eqb key "high" then 16.0%Q
  else 14.0%Q.

(** Some category of the table lists no food. *)
Definition has_empty_category (t : Table) : Prop :=
  Exists (fun cf => snd cf = []) t.

(** The tier [store_food_df] reads for a [group] argument, and its label. *)
Definition tier_of (self : FoodDatabase) (group : string) : Table :=
  if String.eqb group "low" then low_cal self else high_cal self.

Definition label_of (group : string) : string :=
  if String.eqb group "low" then "low_cal" else "high_cal".



(** * Properties *)

Local Open Scope Q_scope.

(** ** Numeric primitives *)

Lemma py_gt_iff (a b : Q) : py_gt a b = true <-> b < a.
Proof.
  unfold py_gt. rewrite negb_true_iff, <- not_true_iff_false, Qle_bool_iff.
  split; [apply Qnot_le_lt | apply Qlt_not_le].
Qed.

Lemma py_gt_false_iff (a b : Q) : py_gt a b = false <-> a <= b.
Proof.
  unfold py_gt. rewrite negb_false_iff. apply Qle_bool_iff.
Qed.

Lemma py_lt_iff (a b : Q) : py_lt a b = true <-> a < b.
Proof. apply py_gt_iff. Qed.

Lemma py_lt_false_iff (a b : Q) : py_lt a b = false <-> b <= a.
Proof. apply py_gt_false_iff. Qed.


Lemma py_max_ge_l (a b : Q) : a <= py_max a b.
Proof.
  unfold py_max. destruct (py_gt b a) eqn:E.
  - apply Qlt_le_weak. now apply py_gt_iff.
  - apply Qle_refl.
Qed.





(** ** [daily_calorie_target] *)




(** ** [goal_type] *)

(** C2.  [goal_type] returns ["lose"] exactly when [goal_w < current_w],
    ["gain"] exactly when [goal_w > current_w] and ["maintain"] exactly when
    the two weights are equal; the comparison is exact, without tolerance. *)
Theorem goal_type_spec (p : Person) :
  (goal_type p = "lose" <-> goal_w p < current_w p) /\
  (goal_type p = "gain" <-> current_w p < goal_w p) /\
  (goal_type p = "maintain" <-> goal_w p == current_w p).
Proof.
  unfold goal_type.
  destruct (py_lt (goal_w p) (current_w p)) eqn:Hlt;
    [|destruct (py_gt (goal_w p) (current_w p)) eqn:Hgt].
  - apply py_lt_iff in Hlt.
    repeat split; intros; try discriminate; try reflexivity; lra.
  - apply py_lt_false_iff in Hlt. apply py_gt_iff in Hgt.
    repeat split; intros; try discriminate; try reflexivity; lra.
  - apply py_lt_false_iff in Hlt. apply py_gt_false_iff in Hgt.
    repeat split; intros; try discriminate; try reflexivity; lra.
Qed.

(** ** [maintain_cals] *)



Lemma factors_get (key : string) :
  dict_get factors key 14.0 = activity_factor_spec key.
Proof.
  unfold dict_get, factors, activity_factor_spec.
  destruct (String.eqb_spec key "low") as [->|Hlow]; [reflexivity|].
  destruct (String.eqb_spec key "medium") as [->|Hmed]; [reflexivity|].
  destruct (String.eqb_spec key "high") as [->|Hhigh]; [reflexivity|].
  rewrite !lookup_insert_ne by congruence. now rewrite lookup_empty.
Qed.

Lemma maintain_cals_factor (w : Q) (s : string) :
  maintain_cals w s = w * activity_factor_spec (lower s).
Proof. unfold maintain_cals. now rewrite factors_get. Qed.





(** ** [protein_grams] *)

Lemma goal_type_cases (p : Person) :
  goal_type p = "lose" \/ goal_type p = "gain" \/ goal_type p = "maintain".
Proof.
  unfold goal_type.
  destruct (py_lt _ _); [|destruct (py_gt _ _)]; auto.
Qed.



(** ** [Person.__init__] *)


(** ** [random_meal] *)

Local Open Scope Z_scope.

Lemma random_choice_in {A : Type} (seq : list A) (g : Rng) :
  seq <> [] ->
  exists x : A,
    random_choice seq g = Ok (x, mkRng (draws g) (S (cursor g))) /\ In x seq.
Proof.
  destruct seq as [|a seq]; [congruence|]. intros _.
  eexists. split; [reflexivity|].
  apply nth_In. apply Nat.mod_upper_bound. discriminate.
Qed.

Lemma meal_loop_spec (t : Table) :
  table_ok t ->
  forall (acc : list string) (total : Z) (g : Rng),
  exists (picks : list FoodItem) (g' : Rng),
    meal_loop t acc total g
    = Ok ((acc ++ meal_of t picks)%list, total + total_of picks, g') /\
    one_per_category t picks /\
    Forall (fun f => 0 < snd f) picks.
Proof.
  unfold FoodItem.
  induction 1 as [|[category foods] rest [Hne Hpos] _ IH]; intros acc total g.
  - exists [], g. simpl. unfold rand_ret, meal_of, total_of. simpl.
    rewrite app_nil_r, Z.add_0_r. repeat split; constructor.
  - simpl in Hne, Hpos.
    destruct (random_choice_in foods g Hne) as ([name cals] & Hch & Hin).
    destruct (IH (acc ++ [format_item category name])%list (total + cals)
                (mkRng (draws g) (S (cursor g)))) as (picks & g' & Hl & Hsel & Hp).
    exists ((name, cals) :: picks), g'. split; [|split].
    + cbn [meal_loop]. unfold rand_bind at 1, FoodItem. rewrite Hch, Hl.
      unfold meal_of, total_of. cbn [zip_with map fold_right fst snd].
      now rewrite <- app_assoc, Z.add_assoc.
    + now constructor.
    + constructor; [|assumption].
      exact (proj1 (List.Forall_forall _ _) Hpos _ Hin).
Qed.


Lemma low_cal_ok : table_ok (low_cal FoodDatabase_init).
Proof.
  repeat constructor; simpl; try discriminate; reflexivity.
Qed.

Lemma high_cal_ok : table_ok (high_cal FoodDatabase_init).
Proof.
  repeat constructor; simpl; try discriminate; reflexivity.
Qed.

Lemma meal_of_length (source : Table) (picks : list FoodItem) :
  one_per_category source picks ->
  length (meal_of source picks) = length source /\
  length picks = length source.
Proof.
  induction 1 as [|cf pick source picks _ _ [IH1 IH2]]; [split; reflexivity|].
  unfold meal_of in *. simpl. now rewrite IH1, IH2.
Qed.

Lemma random_meal_tables (self : FoodDatabase) (person : Person) (g : Rng) :
  table_ok (low_cal self) -> table_ok (high_cal self) ->
  exists (source : Table) (picks : list FoodItem) (group : string) (g' : Rng),
    random_meal self person g
    = Ok (meal_of source picks, total_of picks, group, g') /\
    ((goal_type person = "lose" /\ source = low_cal self /\ group = "low") \/
     (goal_type person = "gain" /\ source = high_cal self /\ group = "high") \/
     (goal_type person = "maintain" /\
      (source = low_cal self \/ source = high_cal self) /\
      group = "balanced")) /\
    one_per_category source picks /\
    Forall (fun f => 0 < snd f) picks.
Proof.
  intros Hlow Hhigh. unfold random_meal.
  destruct (goal_type_cases person) as [H|[H|H]]; rewrite H;
    cbn [String.eqb Ascii.eqb Bool.eqb]; unfold rand_bind at 1.
  - destruct (meal_loop_spec _ Hlow [] 0 g) as (picks & g' & Hl & Hsel & Hp).
    exists (low_cal self), picks, "low", g'. cbn [rand_ret].
    unfold rand_bind. rewrite Hl. cbn [rand_ret app Z.add]. auto 10.
  - destruct (meal_loop_spec _ Hhigh [] 0 g) as (picks & g' & Hl & Hsel & Hp).
    exists (high_cal self), picks, "high", g'. cbn [rand_ret].
    unfold rand_bind. rewrite Hl. cbn [rand_ret app Z.add]. auto 10.
  - unfold rand_bind at 1.
    destruct (random_choice_in [low_cal self; high_cal self] g)
      as (source & Hch & Hin); [discriminate|].
    rewrite Hch. cbn [rand_ret].
    assert (Hok : table_ok source)
      by (destruct Hin as [<-|[<-|[]]]; assumption).
    destruct (meal_loop_spec _ Hok [] 0
                (mkRng (draws g) (S (cursor g))))
      as (picks & g' & Hl & Hsel & Hp).
    exists source, picks, "balanced", g'.
    unfold rand_bind. rewrite Hl. cbn [rand_ret app Z.add].
    split; [reflexivity|]. split; [|auto].
    right; right. split; [reflexivity|]. split; [|reflexivity].
    destruct Hin as [<-|[<-|[]]]; auto.
Qed.


(** ** [store_food_df] *)


#[local] Instance calories_le_trans : Transitive calories_le.
Proof. intros a b c. unfold calories_le. lia. Qed.

Lemma insert_before_perm (x : nat * Row) (l : DataFrame) :
  Permutation (x :: l) (insert_before x l).
Proof.
  induction l as [|y l IH]; simpl; [reflexivity|].
  destruct (calories (snd x) <=? calories (snd y)); [reflexivity|].
  rewrite <- IH. apply perm_swap.
Qed.


Lemma insert_before_sorted (x : nat * Row) (l : DataFrame) :
  Sorted calories_le l -> Sorted calories_le (insert_before x l).
Proof.
  induction 1 as [|y l Hs IH Hhd]; simpl; [repeat constructor|].
  destruct (calories (snd x) <=? calories (snd y)) eqn:E.
  - apply Z.leb_le in E. repeat constructor; assumption.
  - apply Z.leb_gt in E. constructor; [assumption|].
    destruct Hhd as [|z l Hz]; simpl.
    + constructor. unfold calories_le. lia.
    + destruct (calories (snd x) <=? calories (snd z));
        constructor; unfold calories_le in *; lia.
Qed.


Lemma sort_stable_meets (df : DataFrame) :
  df <> [] -> sort_values_calories df (Ok (sort_stable df)).
Proof.
  intros Hne. constructor; [assumption| |]; unfold sort_stable.
  - induction df as [|x df IH]; simpl; [reflexivity|].
    destruct df as [|y df]; [reflexivity|].
    rewrite <- insert_before_perm. now rewrite <- IH.
  - clear Hne. induction df as [|x df IH]; simpl; [constructor|].
    now apply insert_before_sorted.
Qed.



Lemma food_rows_catalog (source : Table) (label : string) :
  food_rows source label = catalog_rows source label.
Proof.
  unfold food_rows, catalog_rows.
  assert (Hinner : forall (category : string) (foods : list FoodItem)
                          (rows : list Row),
             fold_left
               (fun (rows : list Row) '(name, cals) =>
                  (rows ++ [mkRow label category name cals])%list)
               foods rows
             = (rows ++ map (fun f => mkRow label category (fst f) (snd f))
                          foods)%list).
  { intros category foods. induction foods as [|[name cals] foods IH];
      intros rows; simpl; [now rewrite app_nil_r|].
    rewrite IH, <- app_assoc. reflexivity. }
  assert (Houter : forall (rows : list Row),
             fold_left
               (fun (rows : list Row) '(category, foods) =>
                  fold_left
                    (fun (rows : list Row) '(name, cals) =>
                       (rows ++ [mkRow label category name cals])%list)
                    foods rows)
               source rows
             = (rows ++ catalog_rows source label)%list).
  { induction source as [|[category foods] source IH]; intros rows; simpl;
      [now rewrite app_nil_r|].
    rewrite IH, Hinner, <- app_assoc. reflexivity. }
  apply (Houter []).
Qed.

Lemma catalog_rows_length (source : Table) (label : string) :
  length (catalog_rows source label) = table_size source.
Proof.
  unfold catalog_rows, table_size.
  induction source as [|[category foods] source IH]; simpl; [reflexivity|].
  now rewrite length_app, length_map, IH.
Qed.

Lemma catalog_rows_group (source : Table) (label : string) :
  Forall (fun r => group r = label) (catalog_rows source label).
Proof.
  unfold catalog_rows.
  induction source as [|[category foods] source IH]; simpl; [constructor|].
  apply Forall_app. split; [|assumption].
  apply Forall_fmap. apply Forall_true. reflexivity.
Qed.

Lemma DataFrame_of_rows_rows (rows : list Row) :
  map snd (DataFrame_of_rows rows) = rows.
Proof. unfold DataFrame_of_rows. apply snd_zip. now rewrite length_seq. Qed.

Lemma DataFrame_of_rows_length (rows : list Row) :
  length (DataFrame_of_rows rows) = length rows.
Proof. now rewrite <- (length_map snd), DataFrame_of_rows_rows. Qed.

(** What [sort_values] promises of any frame it returns. *)
Lemma sort_values_calories_inv (df : DataFrame) (r : PyResult DataFrame) :
  df <> [] -> sort_values_calories df r ->
  exists out : DataFrame,
    r = Ok out /\ Permutation df out /\ Sorted calories_le out.
Proof.
  intros Hne Hs. destruct Hs as [|df out _ Hperm Hsorted]; [congruence|].
  now exists out.
Qed.

Lemma low_frame_nonempty :
  DataFrame_of_rows (food_rows (low_cal FoodDatabase_init) "low_cal") <> [].
Proof. discriminate. Qed.

Lemma high_frame_nonempty :
  DataFrame_of_rows (food_rows (high_cal FoodDatabase_init) "high_cal") <> [].
Proof. discriminate. Qed.

Lemma store_food_df_tier_inv (source : Table) (label : string)
    (r : PyResult DataFrame) :
  DataFrame_of_rows (food_rows source label) <> [] ->
  sort_values_calories (DataFrame_of_rows (food_rows source label)) r ->
  exists out : DataFrame,
    r = Ok out /\
    Sorted calories_le out /\
    length out = table_size source /\
    Permutation (map snd out) (catalog_rows source label) /\
    Forall (fun ir => group (snd ir) = label) out.
Proof.
  intros Hne Hs.
  destruct (sort_values_calories_inv _ _ Hne Hs) as (out & -> & Hperm & Hsrt).
  exists out. split; [reflexivity|]. split; [assumption|].
  assert (Hrows : Permutation (map snd out) (catalog_rows source label)).
  { rewrite <- Hperm, DataFrame_of_rows_rows. now rewrite food_rows_catalog. }
  split; [|split; [assumption|]].
  - rewrite <- (length_map snd), Hrows. apply catalog_rows_length.
  - assert (Hgrp : Forall (fun r => group r = label) (map snd out))
      by (rewrite Hrows; apply catalog_rows_group).
    now apply List.Forall_map in Hgrp.
Qed.




Lemma NoDup_map_inj {A B : Type} (f : A -> B) (l : list A) (x y : A) :
  NoDup (map f l) -> x ∈ l -> y ∈ l -> f x = f y -> x = y.
Proof.
  induction l as [|a l IH]; simpl; [intros _ Hx; inversion Hx|].
  intros Hnd Hx Hy Hf. apply NoDup_cons in Hnd as [Hnotin Hnd].
  apply elem_of_cons in Hx as [->|Hx]; apply elem_of_cons in Hy as [->|Hy];
    auto.
  - exfalso. apply Hnotin. rewrite Hf. now apply list_elem_of_fmap_2.
  - exfalso. apply Hnotin. rewrite <- Hf. now apply list_elem_of_fmap_2.
Qed.

Lemma high_frame_calories_distinct :
  NoDup
    (map (fun ir : nat * Row => calories (snd ir))
       (DataFrame_of_rows (food_rows (high_cal FoodDatabase_init) "high_cal"))).
Proof.
  vm_compute.
  repeat (apply NoDup_cons; split;
          [rewrite list_elem_of_In; simpl; intuition lia|]).
  now apply NoDup_nil.
Qed.

Lemma store_food_df_high_unique (r : PyResult DataFrame) :
  sort_values_calories
    (DataFrame_of_rows (food_rows (high_cal FoodDatabase_init) "high_cal")) r
  <-> r = Ok high_cal_frame.
Proof.
  split.
  - intros Hr.
    destruct (sort_values_calories_inv _ _ high_frame_nonempty Hr)
      as (out & -> & Hperm & Hsrt).
    f_equal.
    pose proof (sort_stable_meets _ high_frame_nonempty) as Href.
    destruct (sort_values_calories_inv _ _ high_frame_nonempty Href)
      as (ref & Heq & Hperm' & Hsrt').
    injection Heq as <-.
    apply (Sorted_unique_strong calories_le);
      [|assumption|assumption|now rewrite <- Hperm, <- Hperm'].
    intros x1 x2 Hx1 Hx2 H12 H21.
    apply (NoDup_map_inj _ _ x1 x2 high_frame_calories_distinct).
    + now rewrite Hperm.
    + now rewrite Hperm'.
    + unfold calories_le in *. lia.
  - intros ->. apply (sort_stable_meets _ high_frame_nonempty).
Qed.

(** C10.  For every [group] argument other than the exact string ["low"]
    (["high"], ["HIGH"], ["Low"], any unknown string) [store_food_df] returns
    the rows of the high-calorie table, labelled ["high_cal"]: the tier is
    chosen by a case-sensitive comparison with ["low"], and an unknown tier is
    no error. *)
Theorem store_food_df_other_tier (self : FoodDatabase) (g : string)
    (Hg : g <> "low") :
  store_food_df self g
  = sort_values_calories
      (DataFrame_of_rows (food_rows (high_cal self) "high_cal")) /\
  store_food_df self g = store_food_df self "high" /\
  (forall r : PyResult DataFrame,
     store_food_df FoodDatabase_init g r <-> r = Ok high_cal_frame) /\
  Forall (fun ir => group (snd ir) = "high_cal") high_cal_frame /\
  Permutation (map snd high_cal_frame)
    (catalog_rows (high_cal FoodDatabase_init) "high_cal").
Proof.
  assert (Hsel : forall db : FoodDatabase,
             store_food_df db g
             = sort_values_calories
                 (DataFrame_of_rows (food_rows (high_cal db) "high_cal"))).
  { intros db. unfold store_food_df.
    destruct (String.eqb_spec g "low") as [->|_]; [congruence|reflexivity]. }
  split; [apply Hsel|]. split; [now rewrite Hsel|].
  split; [intros r; rewrite Hsel; apply store_food_df_high_unique|].
  pose proof (sort_stable_meets _ high_frame_nonempty) as Href.
  destruct (store_food_df_tier_inv _ _ _ high_frame_nonempty Href)
    as (out & Heq & _ & _ & Hperm & Hgrp).
  injection Heq as <-. split; assumption.
Qed.

Lemma store_food_df_other_tier_witness :
  "HIGH" <> "low" /\
  store_food_df FoodDatabase_init "HIGH" (Ok high_cal_frame).
Proof.
  split; [discriminate|].
  destruct (store_food_df_other_tier FoodDatabase_init "HIGH")
    as (_ & _ & Hres & _); [discriminate|].
  apply Hres. reflexivity.
Defined.

(** The declaration order of equal-calorie rows is one of the orders
    [store_food_df("low")] may return. *)
Lemma store_food_df_low_ties_may_be_kept :
  exists out : DataFrame,
    store_food_df FoodDatabase_init "low" (Ok out) /\ ties_keep_order out.
Proof.
  exists (sort_stable
            (DataFrame_of_rows (food_rows (low_cal FoodDatabase_init) "low_cal"))).
  split; [apply (sort_stable_meets _ low_frame_nonempty)|].
  vm_compute sort_stable. unfold ties_keep_order, index_order_on_ties.
  repeat (apply SSorted_cons;
          [|repeat (apply List.Forall_cons; [simpl; intros; lia|]);
            apply List.Forall_nil]).
  apply SSorted_nil.
Qed.

(** ** The assertions of the test suite *)

Local Open Scope Q_scope.

Example test_goal_type :
  (let? p := Person_new 160 140 12 "medium" in Ok (goal_type p)) = Ok "lose" /\
  (let? p := Person_new 120 150 12 "medium" in Ok (goal_type p)) = Ok "gain" /\
  (let? p := Person_new 150 150 12 "medium" in Ok (goal_type p))
  = Ok "maintain".
Proof. repeat split. Qed.

Example test_daily_calorie_target :
  exists gain_target lose_target : Q,
    (let? p := Person_new 150 170 10 "medium" in daily_calorie_target p)
    = Ok (gain_target, false) /\
    (let? p := Person_new 150 130 10 "medium" in daily_calorie_target p)
    = Ok (lose_target, false) /\
    gain_target == 3100 /\ lose_target == 1100 /\
    maintain_cals 150 "medium" < gain_target /\
    lose_target < maintain_cals 150 "medium".
Proof. eexists _, _. repeat split. Qed.

Example test_unhealthy_short_timeline :
  exists target : Q,
    (let? p := Person_new 150 130 1 "medium" in daily_calorie_target p)
    = Ok (target, true) /\ target == -7900.
Proof. eexists. repeat split. Qed.

Example test_zero_timeline :
  exists target : Q,
    (let? p := Person_new 150 149 0 "medium" in daily_calorie_target p)
    = Ok (target, true) /\ target == -1400.
Proof. eexists. repeat split. Qed.

Example test_protein_grams :
  exists protein_lose protein_gain : Q,
    (let? p := Person_new 150 130 12 "medium" in Ok (protein_grams p))
    = Ok protein_lose /\
    (let? p := Person_new 150 170 12 "medium" in Ok (protein_grams p))
    = Ok protein_gain /\
    protein_lose == 150 /\ protein_gain == 120.
Proof. eexists _, _. repeat split. Qed.

Local Open Scope Z_scope.

(** With every draw 0 a maintain profile eats from the low table, the first
    food of each category; with every draw 1 from the high table, the
    second. *)
Example test_random_meal_maintain :
  forall p : Person, goal_type p = "maintain" ->
    (exists g' : Rng,
       random_meal FoodDatabase_init p (mkRng (fun _ => 0%nat) 0)
       = Ok ([ "protein: chicken breast, 100g";
               "dairy: nonfat Greek yogurt, 150g";
               "veggies: spinach, 2 cups";
               "grain: brown rice, 1/2 cup cooked" ], 385, "balanced", g')) /\
    (exists g' : Rng,
       random_meal FoodDatabase_init p (mkRng (fun _ => 1%nat) 0)
       = Ok ([ "protein: ground beef, 100g";
               "dairy: whole milk, 1 cup";
               "veggies: avocado, 1/2";
               "grain: pasta, 1 cup cooked" ], 740, "balanced", g')).
Proof.
  intros p Hp. unfold random_meal. rewrite Hp.
  split; eexists; reflexivity.
Qed.

Example test_random_meal_lose :
  exists g' : Rng,
    (let? p := Person_new 150 140 8 "medium" in
     random_meal FoodDatabase_init p (mkRng (fun n => n) 0))
    = Ok ([ "protein: chicken breast, 100g";
            "dairy: skim milk, 1 cup";
            "veggies: spinach, 2 cups";
            "grain: quinoa, 185g" ], 487, "low", g').
Proof. eexists. reflexivity. Qed.

(** The generator restricts no choice: every position of a sequence is what
    [random.choice] returns for some draw. *)
Lemma random_choice_reaches {A : Type} (seq : list A) (i c : nat) (d : A) :
  (i < length seq)%nat ->
  random_choice seq (mkRng (fun _ => i) c)
  = Ok (nth i seq d, mkRng (fun _ => i) (S c)).
Proof.
  intros Hi. destruct seq as [|a seq]; [inversion Hi|].
  unfold random_choice. cbn [draws cursor].
  rewrite Nat.mod_small by assumption.
  now rewrite (nth_indep _ a d Hi).
Qed.

(** * Further properties of the calorie arithmetic *)

Local Open Scope Q_scope.
















(** * Further properties of [maintain_cals] and [protein_grams] *)






(** X10.  An activity string that is none of the three levels once lowercased, the
    empty string included, is treated as ["medium"]. *)
Theorem maintain_cals_unknown_level (w : Q) (s : string)
    (Hlow : lower s <> "low") (Hmed : lower s <> "medium")
    (Hhigh : lower s <> "high") :
  maintain_cals w s = maintain_cals w "medium" /\
  factors !! lower s = None.
Proof.
  split.
  - rewrite !maintain_cals_factor. unfold activity_factor_spec.
    destruct (String.eqb_spec (lower s) "low"); [contradiction|].
    destruct (String.eqb_spec (lower s) "medium"); [contradiction|].
    destruct (String.eqb_spec (lower s) "high"); [contradiction|].
    reflexivity.
  - unfold factors. rewrite !lookup_insert_ne by congruence.
    apply lookup_empty.
Qed.

Lemma maintain_cals_unknown_level_witness :
  maintain_cals 150 "" = maintain_cals 150 "medium" /\
  factors !! lower "" = None.
Proof. apply (maintain_cals_unknown_level 150 ""); discriminate. Defined.



(** * Further properties of [random_meal] *)

Local Open Scope Z_scope.

Lemma meal_loop_rng (t : Table) :
  forall (acc : list string) (total : Z) (g g' : Rng) (r : list string * Z),
    meal_loop t acc total g = Ok (r, g') ->
    draws g' = draws g /\ cursor g' = (cursor g + length t)%nat.
Proof.
  induction t as [|[category foods] rest IH]; intros acc total g g' r Hrun.
  - injection Hrun as _ <-. split; [reflexivity|simpl; lia].
  - cbn [meal_loop] in Hrun. unfold rand_bind at 1 in Hrun.
    destruct foods as [|f foods]; [discriminate|].
    cbn [random_choice] in Hrun.
    destruct (nth _ (f :: foods) f) as [name cals].
    apply IH in Hrun as [Hd Hc]. cbn [draws cursor] in Hd, Hc.
    split; [assumption|]. rewrite Hc. simpl. lia.
Qed.

Lemma meal_loop_empty_category (t : Table) :
  has_empty_category t ->
  forall (acc : list string) (total : Z) (g : Rng),
    meal_loop t acc total g = Raise IndexError.
Proof.
  induction t as [|[category foods] rest IH]; intros Hex acc total g;
    [inversion Hex|].
  cbn [meal_loop]. unfold rand_bind at 1.
  destruct foods as [|f foods]; [reflexivity|].
  cbn [random_choice]. destruct (nth _ (f :: foods) f) as [name cals].
  apply IH. inversion Hex as [? ? Hhd|? ? Htl]; [discriminate Hhd|exact Htl].
Qed.

Lemma meal_loop_nonempty (t : Table) :
  ~ has_empty_category t ->
  forall (acc : list string) (total : Z) (g : Rng),
  exists (picks : list FoodItem) (g' : Rng),
    meal_loop t acc total g
    = Ok ((acc ++ meal_of t picks)%list, total + total_of picks, g') /\
    one_per_category t picks.
Proof.
  unfold FoodItem.
  induction t as [|[category foods] rest IH]; intros Hne acc total g.
  - exists [], g. simpl. unfold rand_ret, meal_of, total_of. simpl.
    rewrite app_nil_r, Z.add_0_r. split; [reflexivity|constructor].
  - assert (Hfoods : foods <> [])
      by (intros ->; apply Hne; now constructor).
    assert (Hrest : ~ has_empty_category rest)
      by (intros H; apply Hne; now constructor).
    destruct (random_choice_in foods g Hfoods) as ([name cals] & Hch & Hin).
    destruct (IH Hrest (acc ++ [format_item category name])%list
                (total + cals) (mkRng (draws g) (S (cursor g))))
      as (picks & g' & Hl & Hsel).
    exists ((name, cals) :: picks), g'. split.
    + cbn [meal_loop]. unfold rand_bind at 1. unfold FoodItem in *.
      rewrite Hch, Hl.
      unfold meal_of, total_of. cbn [zip_with map fold_right fst snd].
      now rewrite <- app_assoc, Z.add_assoc.
    + now constructor.
Qed.

(** X12.  A catalog table with a category that lists no food makes [random_meal]
    raise [IndexError]: for a lose profile when the low table has one, for a
    gain profile when the high table has one, for a maintain profile when
    both have. *)
Theorem random_meal_empty_category (self : FoodDatabase) (person : Person)
    (g : Rng)
    (Hlow : goal_type person <> "gain" -> has_empty_category (low_cal self))
    (Hhigh : goal_type person <> "lose" -> has_empty_category (high_cal self)) :
  random_meal self person g = Raise IndexError.
Proof.
  unfold random_meal.
  destruct (goal_type_cases person) as [H|[H|H]]; rewrite H in *;
    cbn [String.eqb Ascii.eqb Bool.eqb]; unfold rand_bind at 1.
  - cbn [rand_ret]. unfold rand_bind.
    rewrite meal_loop_empty_category; [reflexivity|].
    apply Hlow. discriminate.
  - cbn [rand_ret]. unfold rand_bind.
    rewrite meal_loop_empty_category; [reflexivity|].
    apply Hhigh. discriminate.
  - unfold rand_bind at 1.
    destruct (random_choice_in [low_cal self; high_cal self] g)
      as (source & Hch & Hin); [discriminate|].
    rewrite Hch. cbn [rand_ret]. unfold rand_bind.
    rewrite meal_loop_empty_category; [reflexivity|].
    destruct Hin as [<-|[<-|[]]]; [apply Hlow|apply Hhigh]; discriminate.
Qed.

Lemma random_meal_empty_category_witness :
  random_meal
    (mkFoodDatabase [("protein", [("tofu, 100g", 80)]); ("dairy", [])]
       (high_cal FoodDatabase_init))
    (mkPerson 150 130 12 "medium" false 2000 28 (140 / 9)%Q)
    (mkRng (fun n => n) 0)
  = Raise IndexError.
Proof.
  apply random_meal_empty_category.
  - intros _. right. left. reflexivity.
  - intros H. exfalso. apply H. reflexivity.
Defined.

(** X13.  On any catalog whose categories all list a food, [random_meal] raises
    nothing and returns one entry per category of the table it serves from,
    each food taken from its own category, with their calories summed. *)
Theorem random_meal_any_catalog (self : FoodDatabase) (person : Person)
    (g : Rng)
    (Hlow : ~ has_empty_category (low_cal self))
    (Hhigh : ~ has_empty_category (high_cal self)) :
  exists (source : Table) (picks : list FoodItem) (group : string) (g' : Rng),
    random_meal self person g
    = Ok (meal_of source picks, total_of picks, group, g') /\
    (source = low_cal self \/ source = high_cal self) /\
    one_per_category source picks /\
    length (meal_of source picks) = length source.
Proof.
  unfold random_meal.
  destruct (goal_type_cases person) as [H|[H|H]]; rewrite H;
    cbn [String.eqb Ascii.eqb Bool.eqb]; unfold rand_bind at 1.
  - destruct (meal_loop_nonempty _ Hlow [] 0 g) as (picks & g' & Hl & Hsel).
    exists (low_cal self), picks, "low", g'. cbn [rand_ret].
    unfold rand_bind. rewrite Hl. cbn [rand_ret app Z.add].
    pose proof (meal_of_length _ _ Hsel) as [Hlen _]. auto.
  - destruct (meal_loop_nonempty _ Hhigh [] 0 g) as (picks & g' & Hl & Hsel).
    exists (high_cal self), picks, "high", g'. cbn [rand_ret].
    unfold rand_bind. rewrite Hl. cbn [rand_ret app Z.add].
    pose proof (meal_of_length _ _ Hsel) as [Hlen _]. auto.
  - unfold rand_bind at 1.
    destruct (random_choice_in [low_cal self; high_cal self] g)
      as (source & Hch & Hin); [discriminate|].
    rewrite Hch. cbn [rand_ret].
    assert (Hsrc : source = low_cal self \/ source = high_cal self)
      by (destruct Hin as [<-|[<-|[]]]; auto).
    assert (Hok : ~ has_empty_category source)
      by (destruct Hsrc as [-> | ->]; assumption).
    destruct (meal_loop_nonempty _ Hok [] 0 (mkRng (draws g) (S (cursor g))))
      as (picks & g' & Hl & Hsel).
    exists source, picks, "balanced", g'.
    unfold rand_bind. rewrite Hl. cbn [rand_ret app Z.add].
    pose proof (meal_of_length _ _ Hsel) as [Hlen _]. auto.
Qed.

Lemma random_meal_any_catalog_witness :
  exists (source : Table) (picks : list FoodItem) (group : string) (g' : Rng),
    random_meal
      (mkFoodDatabase [("snack", [("apple, 1 medium", 95)])]
         [("snack", [("granola bar", 190); ("trail mix, 40g", 0)])])
      (mkPerson 150 150 12 "medium" false 2000 28 (140 / 9)%Q)
      (mkRng (fun n => 1%nat) 0)
    = Ok (meal_of source picks, total_of picks, group, g') /\
    (source = [("snack", [("apple, 1 medium", 95)])] \/
     source = [("snack", [("granola bar", 190); ("trail mix, 40g", 0)])]) /\
    one_per_category source picks /\
    length (meal_of source picks) = length source.
Proof.
  apply (random_meal_any_catalog
           (mkFoodDatabase [("snack", [("apple, 1 medium", 95)])]
              [("snack", [("granola bar", 190); ("trail mix, 40g", 0)])]));
    cbn [low_cal high_cal]; intros H;
    inversion H as [? ? Hhd|? ? Htl]; [discriminate Hhd|inversion Htl|
                                        discriminate Hhd|inversion Htl].
Defined.

(** X14.  [random_meal] leaves the sequence of draws alone and consumes one draw
    per category of the catalog, four, and one more to pick the table of a
    maintain profile. *)
Theorem random_meal_draws (person : Person) (g : Rng) :
  exists (items : list string) (total : Z) (group : string) (g' : Rng),
    random_meal FoodDatabase_init person g = Ok (items, total, group, g') /\
    draws g' = draws g /\
    cursor g'
    = (cursor g + 4
       + (if String.eqb (goal_type person) "maintain" then 1 else 0))%nat.
Proof.
  unfold random_meal.
  destruct (goal_type_cases person) as [H|[H|H]]; rewrite H;
    cbn [String.eqb Ascii.eqb Bool.eqb]; unfold rand_bind at 1.
  - cbn [rand_ret]. unfold rand_bind.
    destruct (meal_loop_spec _ low_cal_ok [] 0 g) as (picks & g' & Hl & _).
    rewrite Hl. cbn [rand_ret]. eexists _, _, _, _. split; [reflexivity|].
    apply meal_loop_rng in Hl as [Hd Hc]. split; [assumption|].
    rewrite Hc. simpl. lia.
  - cbn [rand_ret]. unfold rand_bind.
    destruct (meal_loop_spec _ high_cal_ok [] 0 g) as (picks & g' & Hl & _).
    rewrite Hl. cbn [rand_ret]. eexists _, _, _, _. split; [reflexivity|].
    apply meal_loop_rng in Hl as [Hd Hc]. split; [assumption|].
    rewrite Hc. simpl. lia.
  - unfold rand_bind at 1.
    destruct (random_choice_in [low_cal FoodDatabase_init;
                                high_cal FoodDatabase_init] g)
      as (source & Hch & Hin); [discriminate|].
    rewrite Hch. cbn [rand_ret].
    assert (Hok : table_ok source /\ length source = 4%nat).
    { destruct Hin as [<-|[<-|[]]]; split;
        auto using low_cal_ok, high_cal_ok. }
    destruct Hok as [Hok Hfour].
    destruct (meal_loop_spec _ Hok [] 0 (mkRng (draws g) (S (cursor g))))
      as (picks & g' & Hl & _).
    unfold rand_bind. rewrite Hl. cbn [rand_ret].
    eexists _, _, _, _. split; [reflexivity|].
    apply meal_loop_rng in Hl as [Hd Hc]. cbn [draws cursor] in Hd, Hc.
    split; [assumption|]. rewrite Hc, Hfour. lia.
Qed.

Ltac split_selection :=
  repeat match goal with
         | H : Forall2 _ (_ :: _) _ |- _ => inversion H; subst; clear H
         | H : Forall2 _ [] _ |- _ => inversion H; subst; clear H
         end.

Lemma low_meal_range (picks : list FoodItem) :
  one_per_category (low_cal FoodDatabase_init) picks ->
  260 <= total_of picks <= 532.
Proof.
  unfold one_per_category. cbn [low_cal FoodDatabase_init]. intros H.
  split_selection. cbn [snd In] in *.
  repeat match goal with
         | H : _ \/ _ |- _ => destruct H as [H|H]
         | H : False |- _ => destruct H
         end; subst; unfold total_of; simpl; lia.
Qed.

Lemma high_meal_range (picks : list FoodItem) :
  one_per_category (high_cal FoodDatabase_init) picks ->
  613 <= total_of picks <= 740.
Proof.
  unfold one_per_category. cbn [high_cal FoodDatabase_init]. intros H.
  split_selection. cbn [snd In] in *.
  repeat match goal with
         | H : _ \/ _ |- _ => destruct H as [H|H]
         | H : False |- _ => destruct H
         end; subst; unfold total_of; simpl; lia.
Qed.

(** X15.  With the catalog as built, a meal for a lose profile has between 260 and
    532 calories and a meal for a gain profile between 613 and 740, so every
    lose meal is lighter than every gain meal; a meal for a maintain profile
    falls in one of the two ranges. *)
Theorem random_meal_calorie_range (person : Person) (g : Rng) :
  exists (items : list string) (total : Z) (group : string) (g' : Rng),
    random_meal FoodDatabase_init person g = Ok (items, total, group, g') /\
    ((goal_type person = "lose" /\ 260 <= total <= 532) \/
     (goal_type person = "gain" /\ 613 <= total <= 740) \/
     (goal_type person = "maintain" /\
      (260 <= total <= 532 \/ 613 <= total <= 740))).
Proof.
  destruct (random_meal_tables FoodDatabase_init person g
              low_cal_ok high_cal_ok)
    as (source & picks & group & g' & Hrun & Hcase & Hsel & _).
  exists (meal_of source picks), (total_of picks), group, g'.
  split; [assumption|].
  destruct Hcase as [(Hg & -> & _)|[(Hg & -> & _)|(Hg & [->| ->] & _)]].
  - left. split; [assumption|]. now apply low_meal_range.
  - right; left. split; [assumption|]. now apply high_meal_range.
  - right; right. split; [assumption|]. left. now apply low_meal_range.
  - right; right. split; [assumption|]. right. now apply high_meal_range.
Qed.

(** * Further properties of [store_food_df] *)

Lemma store_food_df_tier (self : FoodDatabase) (g : string) :
  store_food_df self g
  = sort_values_calories
      (DataFrame_of_rows (food_rows (tier_of self g) (label_of g))).
Proof.
  unfold store_food_df, tier_of, label_of.
  destruct (String.eqb g "low"); reflexivity.
Qed.

Lemma DataFrame_of_rows_nil_iff (rows : list Row) :
  DataFrame_of_rows rows = [] <-> rows = [].
Proof.
  split; [|intros ->; reflexivity].
  intros H. apply (f_equal (@length _)) in H.
  rewrite DataFrame_of_rows_length in H. now destruct rows.
Qed.

(** X16.  A tier without a single food, whether it has no category or only empty
    ones, makes [store_food_df] raise [KeyError], the frame having no
    ["calories"] column to sort by; a tier with a food never raises. *)
Theorem store_food_df_empty_tier (self : FoodDatabase) (g : string) :
  (table_size (tier_of self g) = 0%nat ->
   forall r : PyResult DataFrame,
     store_food_df self g r <-> r = Raise KeyError) /\
  (table_size (tier_of self g) <> 0%nat ->
   (exists out : DataFrame, store_food_df self g (Ok out)) /\
   forall e : PyExc, ~ store_food_df self g (Raise e)).
Proof.
  rewrite store_food_df_tier.
  pose proof (catalog_rows_length (tier_of self g) (label_of g)) as Hlen.
  rewrite <- food_rows_catalog in Hlen.
  split; intros Hsize.
  - assert (Hnil : DataFrame_of_rows
                     (food_rows (tier_of self g) (label_of g)) = []).
    { apply DataFrame_of_rows_nil_iff. rewrite Hsize in Hlen.
      now destruct (food_rows _ _). }
    rewrite Hnil. intros r. split.
    + intros Hr. inversion Hr; congruence.
    + intros ->. constructor.
  - assert (Hne : DataFrame_of_rows
                    (food_rows (tier_of self g) (label_of g)) <> []).
    { rewrite DataFrame_of_rows_nil_iff. intros Hnil.
      rewrite Hnil in Hlen. simpl in Hlen. congruence. }
    split.
    + eexists. apply (sort_stable_meets _ Hne).
    + intros e Hr.
      destruct (sort_values_calories_inv _ _ Hne Hr) as (out & Heq & _).
      discriminate.
Qed.

Lemma store_food_df_empty_tier_witness :
  store_food_df (mkFoodDatabase (low_cal FoodDatabase_init) [("grain", [])])
    "high" (Raise KeyError) /\
  exists out : DataFrame,
    store_food_df (mkFoodDatabase (low_cal FoodDatabase_init) [("grain", [])])
      "low" (Ok out).
Proof.
  split.
  - apply (store_food_df_empty_tier
             (mkFoodDatabase (low_cal FoodDatabase_init) [("grain", [])])
             "high"); reflexivity.
  - apply (store_food_df_empty_tier
             (mkFoodDatabase (low_cal FoodDatabase_init) [("grain", [])])
             "low"). discriminate.
Defined.

Lemma elem_of_DataFrame_of_rows (rows : list Row) (i : nat) (row : Row) :
  (i, row) ∈ DataFrame_of_rows rows <-> rows !! i = Some row.
Proof.
  unfold DataFrame_of_rows. rewrite list_elem_of_lookup. split.
  - intros [j Hj]. apply lookup_zip_with_Some in Hj
      as (x & y & Heq & Hx & Hy).
    injection Heq as -> ->. apply lookup_seq in Hx as [-> _]. exact Hy.
  - intros Hrow. exists i. apply lookup_zip_with_Some.
    exists i, row. split; [reflexivity|]. split; [|assumption].
    apply lookup_seq. split; [reflexivity|].
    now apply lookup_lt_Some in Hrow.
Qed.

(** X17.  The frame [store_food_df] returns keeps the index labels of the unsorted
    frame: the row labelled [i] is the [i]-th food in declaration order, and
    the labels are those from 0 to the number of foods, each once. *)
Theorem store_food_df_index_labels (self : FoodDatabase) (g : string)
    (out : DataFrame) (Hrun : store_food_df self g (Ok out)) :
  (forall (i : nat) (row : Row),
     (i, row) ∈ out
     <-> catalog_rows (tier_of self g) (label_of g) !! i = Some row) /\
  Permutation (map fst out) (seq 0 (table_size (tier_of self g))) /\
  NoDup (map fst out).
Proof.
  rewrite store_food_df_tier in Hrun.
  inversion Hrun as [|df out' Hne Hperm Hsorted]; subst.
  rewrite food_rows_catalog in Hperm.
  assert (Hlabels : Permutation (map fst out)
                      (seq 0 (table_size (tier_of self g)))).
  { rewrite <- Hperm. unfold DataFrame_of_rows.
    rewrite <- (catalog_rows_length _ (label_of g)).
    rewrite fst_zip by (now rewrite length_seq). reflexivity. }
  split; [|split; [assumption|]].
  - intros i row. rewrite <- Hperm. apply elem_of_DataFrame_of_rows.
  - rewrite Hlabels. apply NoDup_seq.
Qed.

Lemma store_food_df_index_labels_witness :
  store_food_df FoodDatabase_init "high" (Ok high_cal_frame) /\
  NoDup (map fst high_cal_frame).
Proof.
  assert (Hrun : store_food_df FoodDatabase_init "high" (Ok high_cal_frame))
    by apply (sort_stable_meets _ high_frame_nonempty).
  split; [exact Hrun|].
  apply (store_food_df_index_labels FoodDatabase_init "high" _ Hrun).
Defined.





(** * The flag and the direction of the change *)

Local Open Scope Q_scope.


